(** * Conky data sources (src/data-source.hh)

    A shallow embedding of the data-source classes of conky and of the
    bridge that constructs them inside Lua userdata, with the properties
    of the registry and of the two query methods. *)

From Stdlib Require Import ZArith String Ascii List.
From Stdlib Require Import Floats.PrimFloat Floats.SpecFloat Floats.FloatOps.
From stdpp Require Import gmap strings list fin_maps pretty.

Local Open Scope string_scope.

(** ** Native scalars and the memory they live in *)

(** A C++ [double] is an IEEE 754 binary64 number; a [float] is kept in
    the mantissa/exponent form of [SpecFloat]. *)
Definition double : Type := PrimFloat.float.
Definition float32 : Type := spec_float.

(** Arithmetic types [T] for [simple_numeric_source<T>] (the header
    requires [std::is_convertible<T, double>]): an integral type and the
    two floating types. *)
Inductive ctype : Type := c_int | c_float | c_double.

#[global] Instance ctype_eq_dec : EqDecision ctype.
Proof. solve_decision. Defined.

(** The values of type [T]. *)
Definition cval (T : ctype) : Type :=
  match T with
  | c_int => Z
  | c_float => float32
  | c_double => double
  end.

(** One live scalar object of the native program. *)
Inductive scalar : Type :=
  | s_int (z : Z)
  | s_float (f : float32)
  | s_double (d : double).

Definition inject (T : ctype) : cval T -> scalar :=
  match T with
  | c_int => s_int
  | c_float => s_float
  | c_double => s_double
  end.

Definition type_of (v : scalar) : ctype :=
  match v with
  | s_int _ => c_int
  | s_float _ => c_float
  | s_double _ => c_double
  end.

(** The implicit conversion of [return *source;] to the return type
    [double]: integers round to the nearest double, a float widens. *)
Definition to_double (T : ctype) : cval T -> double :=
  match T with
  | c_int => fun z => SF2Prim (binary_normalize prec emax z 0 false)
  | c_float => fun f => SF2Prim f
  | c_double => fun d => d
  end.

(** Native memory: the scalars that are alive, by address.  A pointer
    [const T *] is an address read at type [T]. *)
Abbreviation mem := (gmap N scalar).

(** [*p] for [p : const T *]; [None] stands for the undefined behaviour of
    reading through a pointer to no live object of type [T]. *)
Definition load (T : ctype) (m : mem) (p : N) : option (cval T) :=
  match m !! p with
  | None => None
  | Some v =>
      match T return option (cval T) with
      | c_int => match v with s_int z => Some z | _ => None end
      | c_float => match v with s_float f => Some f | _ => None end
      | c_double => match v with s_double d => Some d | _ => None end
      end
  end.

(** The external collector assigning [*p = x]. *)
Definition store (T : ctype) (p : N) (x : cval T) (m : mem) : mem :=
  <[p := inject T x]> m.

(** ** The classes *)

(** [class data_source_base]: one field, [const std::string name]. *)
Record data_source_base : Type := { name : string }.

(** [template<typename T> class simple_numeric_source : public
    data_source_base], with the field [const T *source]. *)
Record simple_numeric_source (T : ctype) : Type :=
  { sns_base : data_source_base; source : N }.
Arguments sns_base {T} _.
Arguments source {T} _.

(** [class disabled_data_source : public simple_numeric_source<float>]:
    it declares a constructor and nothing else, no field and no method. *)
Record disabled_data_source : Type :=
  { dds_base : simple_numeric_source c_float }.

(** An object by its dynamic class, as a call through a
    [data_source_base *] sees it. *)
Inductive object : Type :=
  | obj_base (o : data_source_base)
  | obj_simple_numeric (T : ctype) (o : simple_numeric_source T)
  | obj_disabled (o : disabled_data_source).

(** The base-class subobject. *)
Definition upcast (o : object) : data_source_base :=
  match o with
  | obj_base b => b
  | obj_simple_numeric _ s => sns_base s
  | obj_disabled d => sns_base (dds_base d)
  end.

(** [o->name] *)
Definition object_name (o : object) : string := name (upcast o).

(** ** Decimal rendering

    The header declares [data_source_base::get_text] and does not define
    it; the definitions of this part are the rendering its model below
    uses. *)

(** Modelled from the spec: the sign of the "canonical decimal
    rendering", which the missing body of [get_text] produces. *)
Definition sign_prefix (neg : bool) : string := if neg then "-" else "".

(** Modelled from the spec: the rounding of the rendering to its "fixed,
    documented precision"; the nearest integer to [n / d] for [0 < d],
    ties to even. *)
Definition round_half_even (n d : Z) : Z :=
  let q := (n / d)%Z in
  match (2 * (n mod d) ?= d)%Z with
  | Lt => q
  | Gt => (q + 1)%Z
  | Eq => if Z.even q then q else (q + 1)%Z
  end.

(** Modelled from the spec: the value [m * 2^e] of a finite double in
    units of [10^-digits], rounded to an integer (part of the rendering
    of the missing [get_text]). *)
Definition scaled (digits : nat) (m : positive) (e : Z) : Z :=
  if (0 <=? e)%Z
  then (Z.pos m * 2 ^ e * 10 ^ Z.of_nat digits)%Z
  else round_half_even (Z.pos m * 10 ^ Z.of_nat digits) (2 ^ (- e)).

(** Modelled from the spec: [n] zeros, the padding of the decimals of
    the rendering. *)
Fixpoint zeros (n : nat) : string :=
  match n with
  | O => ""
  | S k => "0" ++ zeros k
  end.

(** Modelled from the spec: [s] with zeros in front, up to [width]
    characters (the decimals of the rendering have a fixed width). *)
Definition pad_zeros (width : nat) (s : string) : string :=
  zeros (width - String.length s) ++ s.

(** Modelled from the spec: the digits of the rendering; [q] counts
    units of [10^-digits], and the text is the integer part, a point and
    exactly [digits] decimals ("120.500000"). *)
Definition fixed_digits (digits : nat) (q : Z) : string :=
  let unit := (10 ^ Z.of_nat digits)%Z in
  let whole := pretty (Z.to_N (q / unit)) in
  match digits with
  | O => whole
  | S _ => whole ++ "." ++ pad_zeros digits (pretty (Z.to_N (q mod unit)))
  end.

(** Modelled from the spec: the body of [data_source_base::get_text] is
    not in the header, and the spec has it give "the canonical decimal
    rendering" of the number with a "fixed, documented precision"
    ("120.500000" for 120.5).  [render_fixed] is that rendering: the exact
    binary value, rounded to the nearest multiple of [10^-digits] (ties to
    even), in fixed-point notation. *)
Definition render_fixed (digits : nat) (d : double) : string :=
  match Prim2SF d with
  | S754_nan => "nan"
  | S754_infinity s => sign_prefix s ++ "inf"
  | S754_zero s => sign_prefix s ++ fixed_digits digits 0
  | S754_finite s m e => sign_prefix s ++ fixed_digits digits (scaled digits m e)
  end.

(** A double that is neither a NaN nor an infinity. *)
Definition is_finite (d : double) : bool :=
  negb (PrimFloat.is_nan d) && negb (PrimFloat.is_infinity d).

(** [s] occurs in [t] as a substring. *)
Fixpoint contains (t s : string) : bool :=
  String.prefix s t
  || match t with
     | EmptyString => false
     | String _ t' => contains t' s
     end.

(** ** The Lua state

    luamm.hh, which declares [lua::state] and [lua::cpp_function], is not
    among the sources: the header includes it and calls its methods.  The
    state below holds what the factory touches, "memory owned/managed by
    the scripting environment's object system" (the userdata blocks), the
    registry with the "shared type descriptor", the stack and "the
    scripting environment's global namespace"; each method of the wrapper
    does what the Lua C API function of the same name does. *)

(** The template argument of [register_data_source<T>]: a class with a
    constructor [T(lua::state *, const std::string &, Args...)]. *)
Inductive source_class : Type :=
  | class_simple_numeric_source (T : ctype)
  | class_disabled_data_source.

(** [Args...]: what the constructor takes after the state and the name. *)
Definition ctor_args (C : source_class) : Type :=
  match C with
  | class_simple_numeric_source _ => N      (* const T *source_ *)
  | class_disabled_data_source => string    (* const std::string &setting *)
  end.

(** A [lua::cpp_function] is a [std::function] from a state pointer to
    [int]; the ones this header builds are
    [std::bind(&factory<Args...>, _1, name, args...)], kept as the bound
    function and its captured arguments. *)
Inductive cpp_function : Type :=
  | bind_factory (C : source_class) (name_ : string) (args : ctor_args C).

(** Modelled from the spec: the values of the scripting environment
    (luamm.hh is missing); tables and userdata are references. *)
Inductive value : Type :=
  | LNil
  | LBoolean (b : bool)
  | LNumber (d : double)
  | LString (s : string)
  | LTable (r : N)
  | LFunction (f : cpp_function)
  | LUserdata (a : N).

(** The type tags [LUA_TNIL] ... [LUA_TUSERDATA]. *)
Definition type_tag (v : value) : N :=
  match v with
  | LNil => 0
  | LBoolean _ => 1
  | LNumber _ => 3
  | LString _ => 4
  | LTable _ => 5
  | LFunction _ => 6
  | LUserdata _ => 7
  end%N.

(** Modelled from the spec: a table of the scripting environment
    (luamm.hh is missing), its string-keyed fields and its metatable. *)
Record table : Type :=
  { fields : gmap string value; t_metatable : option N }.

(** Modelled from the spec: "storage sized for the variant inside
    memory owned/managed by the scripting environment's object system"
    (luamm.hh is missing).  A full userdata: a block of [ud_size] bytes,
    the C++ object constructed in it (if any) and its metatable, the
    "shared type descriptor". *)
Record udata : Type :=
  { ud_size : N; ud_object : option object; ud_metatable : option N }.

Module lua.

(** Modelled from the spec: [lua::state], declared in the missing
    luamm.hh; "the scripting environment" the factory is handed. *)
Record state : Type :=
  { stack : list value;              (* index 1 first *)
    registry : gmap string value;
    globals : gmap string value;
    tables : gmap N table;
    userdata : gmap N udata;
    type_metatable : gmap N N }.

(** Modelled from the spec: [lua::REGISTRYINDEX] of the missing luamm.hh,
    with the value of [LUA_REGISTRYINDEX] in Lua 5.1; a pseudo-index, no
    position of the stack. *)
Definition REGISTRYINDEX : Z := -10000.

Definition with_stack (st : list value) (l : state) : state :=
  {| stack := st; registry := registry l; globals := globals l;
     tables := tables l; userdata := userdata l;
     type_metatable := type_metatable l |}.

Definition with_globals (g : gmap string value) (l : state) : state :=
  {| stack := stack l; registry := registry l; globals := g;
     tables := tables l; userdata := userdata l;
     type_metatable := type_metatable l |}.

Definition with_tables (t : gmap N table) (l : state) : state :=
  {| stack := stack l; registry := registry l; globals := globals l;
     tables := t; userdata := userdata l;
     type_metatable := type_metatable l |}.

Definition with_userdata (u : gmap N udata) (l : state) : state :=
  {| stack := stack l; registry := registry l; globals := globals l;
     tables := tables l; userdata := u;
     type_metatable := type_metatable l |}.

Definition with_type_metatable (t : gmap N N) (l : state) : state :=
  {| stack := stack l; registry := registry l; globals := globals l;
     tables := tables l; userdata := userdata l;
     type_metatable := t |}.

Definition gettop (l : state) : Z := Z.of_nat (length (stack l)).

Definition push (v : value) (l : state) : state :=
  with_stack (stack l ++ [v]) l.

Definition pop (l : state) : state :=
  with_stack (take (length (stack l) - 1) (stack l)) l.

(** The position, counted from 0 at the bottom, of a stack index:
    positive indices count from the bottom, negative ones from the
    top. *)
Definition position (l : state) (idx : Z) : option nat :=
  if decide (1 <= idx <= gettop l)%Z then Some (Z.to_nat (idx - 1))
  else if decide (- gettop l <= idx <= -1)%Z
       then Some (Z.to_nat (gettop l + idx))
       else None.

(** Modelled from the spec: [lua::state::newuserdata] of the missing
    luamm.hh, "allocates storage ... inside memory owned/managed by the
    scripting environment's object system"; as [lua_newuserdata], a new
    block at an address no block has, pushed on the stack, and the
    address is returned. *)
Definition newuserdata (size : N) (l : state) : N * state :=
  let a := fresh (dom (userdata l)) in
  let block := {| ud_size := size; ud_object := None; ud_metatable := None |} in
  (a, push (LUserdata a) (with_userdata (<[a := block]> (userdata l)) l)).

(** Modelled from the spec: [lua::state::insert] of the missing
    luamm.hh; as [lua_insert], it moves the top element to [idx],
    shifting up the elements above. *)
Definition insert (idx : Z) (l : state) : option state :=
  pos ← position l idx;
  v ← last (stack l);
  let rest := take (length (stack l) - 1) (stack l) in
  Some (with_stack (take pos rest ++ v :: drop pos rest) l).

(** Modelled from the spec: [lua::state::settop] of the missing
    luamm.hh; as [lua_settop], the stack gets [idx] elements
    ([top + idx + 1] for a negative [idx]), by dropping from the top or
    filling with nil. *)
Definition settop (idx : Z) (l : state) : option state :=
  let n := if decide (0 <= idx)%Z then idx else (gettop l + idx + 1)%Z in
  if decide (0 <= n)%Z
  then Some (with_stack
               (take (Z.to_nat n)
                  (stack l ++ replicate (Z.to_nat n - length (stack l)) LNil))
               l)
  else None.

(** Modelled from the spec: [lua::state::rawgetfield] of the missing
    luamm.hh; as [lua_pushstring] and [lua_rawget], it pushes [t[k]] for
    the table [t] at [idx] (the registry for [REGISTRYINDEX]), without
    metamethods; nil when the key is absent. *)
Definition rawgetfield (idx : Z) (k : string) (l : state) : option state :=
  if decide (idx = REGISTRYINDEX)
  then Some (push (default LNil (registry l !! k)) l)
  else
    pos ← position l idx;
    v ← stack l !! pos;
    match v with
    | LTable r =>
        t ← tables l !! r;
        Some (push (default LNil (fields t !! k)) l)
    | _ => None
    end.

(** Modelled from the spec: [lua::state::setmetatable] of the missing
    luamm.hh, "attaches a shared type descriptor"; as [lua_setmetatable],
    it pops a table or nil and makes it the metatable of the value at
    [idx]: of that userdata or table, or of the whole type for the other
    values. *)
Definition setmetatable (idx : Z) (l : state) : option state :=
  pos ← position l idx;
  target ← stack l !! pos;
  top ← last (stack l);
  mt ← match top with
       | LNil => Some None
       | LTable r => Some (Some r)
       | _ => None
       end;
  match target with
  | LUserdata a =>
      u ← userdata l !! a;
      let u' := {| ud_size := ud_size u; ud_object := ud_object u;
                   ud_metatable := mt |} in
      Some (pop (with_userdata (<[a := u']> (userdata l)) l))
  | LTable r =>
      t ← tables l !! r;
      let t' := {| fields := fields t; t_metatable := mt |} in
      Some (pop (with_tables (<[r := t']> (tables l)) l))
  | v =>
      let tm := match mt with
                | Some r => <[type_tag v := r]> (type_metatable l)
                | None => delete (type_tag v) (type_metatable l)
                end in
      Some (pop (with_type_metatable tm l))
  end.

(** Modelled from the spec: "binds it as a callable under its name in
    the scripting environment's global namespace" (luamm.hh is missing);
    as [lua_setglobal]. *)
Definition setglobal (k : string) (v : value) (l : state) : state :=
  with_globals (<[k := v]> (globals l)) l.

(** The placement new of the factory, [new(t) T(...)]: the object takes
    the storage of block [t]. *)
Definition placement_new (t : N) (o : object) (l : state) : option state :=
  u ← userdata l !! t;
  let u' := {| ud_size := ud_size u; ud_object := Some o;
               ud_metatable := ud_metatable u |} in
  Some (with_userdata (<[t := u']> (userdata l)) l).

End lua.

(** ** Constructors, methods, factory and registry *)

(** What the spec leaves to the implementer about duplicate names:
    "reject with an error, or last-registration-wins". *)
Inductive duplicate_policy : Type := reject_duplicate | last_wins.

(** [typedef std::unordered_map<std::string, lua::cpp_function>
    data_sources_t;] *)
Abbreviation data_sources_t := (gmap string cpp_function).

Section DataSource.

(** [sizeof(T)], fixed by the platform's object layout. *)
Variable sizeof : source_class -> N.

(** The address of the [float] the translation unit of
    [disabled_data_source] keeps for "no value". *)
Variable NaN : N.

(** The "fixed, documented precision" of the default text and "the
    documented unavailability string". *)
Variable precision : nat.
Variable unavailable : string.

(** The documented policy for a name registered twice. *)
Variable policy : duplicate_policy.

(** *** Constructors *)

(** [data_source_base(const std::string &name_) : name(name_) {}] *)
Definition data_source_base_ctor (name_ : string) : data_source_base :=
  {| name := name_ |}.

(** [simple_numeric_source(lua::state *, const std::string &name_,
    const T *source_) : data_source_base(name_), source(source_) {}];
    the state parameter has no name and no use. *)
Definition simple_numeric_source_ctor (T : ctype) (_ : lua.state)
    (name_ : string) (source_ : N) : simple_numeric_source T :=
  {| sns_base := data_source_base_ctor name_; source := source_ |}.

(** Modelled from the spec: the header declares the constructor of
    [disabled_data_source] and does not define it.  The class adds no
    field to [simple_numeric_source<float>] and overrides nothing, and
    "[get_number()] always returns NaN": the constructor hands its base
    the address of a float that holds NaN.  The class has no place to
    keep [setting]. *)
Definition disabled_data_source_ctor (l : lua.state)
    (name_ setting : string) : disabled_data_source :=
  {| dds_base := simple_numeric_source_ctor c_float l name_ NaN |}.

(** [new T(l, name, args...)] for each class the factory is instantiated
    at. *)
Definition construct (C : source_class) (l : lua.state) (name_ : string)
    : ctor_args C -> object :=
  match C with
  | class_simple_numeric_source T =>
      fun source_ => obj_simple_numeric T (simple_numeric_source_ctor T l name_ source_)
  | class_disabled_data_source =>
      fun setting => obj_disabled (disabled_data_source_ctor l name_ setting)
  end.

(** *** get_number *)

(** Modelled from the spec: [data_source_base::get_number] is declared
    in the header and defined elsewhere; the header says "The default
    implementation returns NaN", the spec "Default [get_number] =
    NaN". *)
Definition data_source_base_get_number (this : data_source_base) : double :=
  nan.

(** [virtual double get_number() const { return *source; }] *)
Definition simple_numeric_source_get_number (T : ctype) (m : mem)
    (this : simple_numeric_source T) : option double :=
  to_double T <$> load T m (source this).

(** The virtual call [o->get_number()]: the final overrider of the
    dynamic class. *)
Definition get_number (m : mem) (o : object) : option double :=
  match o with
  | obj_base b => Some (data_source_base_get_number b)
  | obj_simple_numeric T s => simple_numeric_source_get_number T m s
  | obj_disabled d => simple_numeric_source_get_number c_float m (dds_base d)
  end.

(** *** get_text *)

(** Modelled from the spec: [data_source_base::get_text] is declared in
    the header and defined elsewhere; the header says "The default
    implementation converts get_number() to a string", the spec
    "defaults to formatting [get_number()], or an explicit
    "unavailable" string when the number is NaN".  [get_number()] is
    the virtual call on the same object. *)
Definition data_source_base_get_text (m : mem) (this : object)
    : option string :=
  v ← get_number m this;
  Some (if PrimFloat.is_nan v then unavailable else render_fixed precision v).

(** The virtual call [o->get_text()]: no class of the header overrides
    it. *)
Definition get_text (m : mem) (o : object) : option string :=
  match o with
  | obj_base _ => data_source_base_get_text m o
  | obj_simple_numeric _ _ => data_source_base_get_text m o
  | obj_disabled _ => data_source_base_get_text m o
  end.

(** Whether the virtual call [o->get_number()] runs an override, that
    is, whether the dynamic class or one of its bases below
    [data_source_base] declares [get_number]: [simple_numeric_source]
    does, and [disabled_data_source] inherits that. *)
Definition overrides_get_number (o : object) : bool :=
  match o with
  | obj_base _ => false
  | obj_simple_numeric _ _ => true
  | obj_disabled _ => true
  end.

(** The same for [get_text], which [data_source_base] alone declares. *)
Definition overrides_get_text (o : object) : bool :=
  match o with
  | obj_base _ => false
  | obj_simple_numeric _ _ => false
  | obj_disabled _ => false
  end.

(** *** The factory *)

(** [priv::data_source_metatable] *)
Definition data_source_metatable : string := "conky::data_source_metatable".

(** [register_data_source<T>::factory]:
<<
    T *t = static_cast<T *>(l->newuserdata(sizeof(T)));
    l->insert(1);
    new(t) T(l, name, std::forward<Args>(args)...);
    l->settop(1);
    l->rawgetfield(lua::REGISTRYINDEX, priv::data_source_metatable);
    l->setmetatable(-2);
    return 1;
>>
    [None] is a call whose behaviour the Lua API leaves undefined;
    running out of memory in [newuserdata] is left out. *)
Definition factory (C : source_class) (l : lua.state) (name_ : string)
    (args : ctor_args C) : option (Z * lua.state) :=
  let '(t, l) := lua.newuserdata (sizeof C) l in
  l ← lua.insert 1 l;
  l ← lua.placement_new t (construct C l name_ args) l;
  l ← lua.settop 1 l;
  l ← lua.rawgetfield lua.REGISTRYINDEX data_source_metatable l;
  l ← lua.setmetatable (-2) l;
  Some (1%Z, l).

(** Calling a [cpp_function]: the bound factory on the state that takes
    the place of [_1]. *)
Definition call (fn : cpp_function) (l : lua.state) : option (Z * lua.state) :=
  match fn with
  | bind_factory C name_ args => factory C l name_ args
  end.

(** Modelled from the spec: "invoking the bound global
    [<name>(extra_args...)] returns an opaque handle"; the interpreter
    that makes the call is not among the sources.  As [lua_call], the
    callee runs on a stack that holds the arguments, its last [n] stack
    elements are the results, and the caller's stack comes back. *)
Definition invoke (fn : cpp_function) (args : list value) (l : lua.state)
    : option (list value * lua.state) :=
  '(n, l') ← call fn (lua.with_stack args l);
  let results := drop (length (lua.stack l') - Z.to_nat n) (lua.stack l') in
  Some (results, lua.with_stack (lua.stack l) l').

(** *** Registration and export *)

(** Modelled from the spec: [priv::do_register_data_source] is declared
    in the header and defined elsewhere.  "The helper then inserts
    [(name, factory)] into the Registry"; for a name that is taken the
    documented [policy] decides, [None] being the error. *)
Definition do_register_data_source (name_ : string) (fn : cpp_function)
    (data_sources : data_sources_t) : option data_sources_t :=
  match data_sources !! name_, policy with
  | Some _, reject_duplicate => None
  | _, _ => Some (<[name_ := fn]> data_sources)
  end.

(** [register_data_source<T>::register_data_source(name, args...)]:
<<
    priv::do_register_data_source(name,
        std::bind(&factory<Args...>, std::placeholders::_1, name,
                  std::forward<Args>(args)...));
>>  *)
Definition register_data_source (C : source_class) (name_ : string)
    (args : ctor_args C) (data_sources : data_sources_t)
    : option data_sources_t :=
  do_register_data_source name_ (bind_factory C name_ args) data_sources.

(** Modelled from the spec: the constructor of
    [register_disabled_data_source] is declared in the header and
    defined elsewhere; it is "a specialization of the same helper that
    always builds a [DisabledSource] given [(name, setting)]", over the
    base class [register_data_source<priv::disabled_data_source>]. *)
Definition register_disabled_data_source (name_ setting : string)
    (data_sources : data_sources_t) : option data_sources_t :=
  register_data_source class_disabled_data_source name_ setting data_sources.

(** Modelled from the spec: [export_data_sources] is declared in the
    header and defined elsewhere; "it iterates every entry and binds it
    as a callable under its name in the scripting environment's global
    namespace". *)
Definition export_data_sources (data_sources : data_sources_t)
    (l : lua.state) : lua.state :=
  map_fold (fun name_ fn l => lua.setglobal name_ (LFunction fn) l)
    l data_sources.

(** *** The program as a whole: native memory and the Lua state *)

Record world : Type := { w_mem : mem; w_lua : lua.state }.

(** The object a handle (the address of a userdata) stands for. *)
Definition object_at (a : N) (l : lua.state) : option object :=
  u ← lua.userdata l !! a;
  ud_object u.

(** A call of [get_number()] on the object behind handle [a]: the
    result and the program state the call leaves. *)
Definition call_get_number (a : N) (w : world) : option (double * world) :=
  o ← object_at a (w_lua w);
  v ← get_number (w_mem w) o;
  Some (v, w).

(** A call of [get_text()] on the object behind handle [a]. *)
Definition call_get_text (a : N) (w : world) : option (string * world) :=
  o ← object_at a (w_lua w);
  t ← get_text (w_mem w) o;
  Some (t, w).

(** What can happen once objects exist: a method call on a handle, the
    collector assigning a scalar, a script calling a bound constructor,
    the export. *)
Inductive action : Type :=
  | act_get_number (a : N)
  | act_get_text (a : N)
  | act_store (T : ctype) (p : N) (x : cval T)
  | act_invoke (fn : cpp_function) (args : list value)
  | act_export (data_sources : data_sources_t).

Definition step (act : action) (w : world) : option world :=
  match act with
  | act_get_number a => snd <$> call_get_number a w
  | act_get_text a => snd <$> call_get_text a w
  | act_store T p x => Some {| w_mem := store T p x (w_mem w); w_lua := w_lua w |}
  | act_invoke fn args =>
      '(_, l) ← invoke fn args (w_lua w);
      Some {| w_mem := w_mem w; w_lua := l |}
  | act_export ds =>
      Some {| w_mem := w_mem w; w_lua := export_data_sources ds (w_lua w) |}
  end.

Fixpoint run (acts : list action) (w : world) : option world :=
  match acts with
  | [] => Some w
  | act :: rest => w' ← step act w; run rest w'
  end.

(** *** Registration call sites *)

(** The calls of [do_register_data_source] made before the export, in
    the order they run. *)
Fixpoint do_register_all (calls : list (string * cpp_function))
    (data_sources : data_sources_t) : option data_sources_t :=
  match calls with
  | [] => Some data_sources
  | (name_, fn) :: rest =>
      ds ← do_register_data_source name_ fn data_sources;
      do_register_all rest ds
  end.

(** *** What the factory leaves behind *)

(** What [rawgetfield(REGISTRYINDEX, data_source_metatable)] finds, as
    [setmetatable] takes it: a table, or nil (no metatable); [None] for
    a value that is neither. *)
Definition metatable_slot (l : lua.state) : option (option N) :=
  match default LNil (lua.registry l !! data_source_metatable) with
  | LNil => Some None
  | LTable r => Some (Some r)
  | _ => None
  end.

(** The state after a factory call on [l]: one new block, tagged with
    [mt], holding the new object, and its handle alone on the stack. *)
Definition constructed (C : source_class) (l : lua.state) (name_ : string)
    (args : ctor_args C) (mt : option N) : lua.state :=
  let a := fresh (dom (lua.userdata l)) in
  let block := {| ud_size := sizeof C;
                  ud_object := Some (construct C l name_ args);
                  ud_metatable := mt |} in
  {| lua.stack := [LUserdata a];
     lua.registry := lua.registry l;
     lua.globals := lua.globals l;
     lua.tables := lua.tables l;
     lua.userdata := <[a := block]> (lua.userdata l);
     lua.type_metatable := lua.type_metatable l |}.

(** Every object in a userdata carries the metatable [r]. *)
Definition all_tagged (r : N) (l : lua.state) : Prop :=
  forall a u o,
    lua.userdata l !! a = Some u -> ud_object u = Some o ->
    ud_metatable u = Some r.

(** *** A concrete program: the spec's scenarios *)

(** An LP64 layout: a vtable pointer, a [std::string] and a pointer. *)
Definition sizeof_lp64 (C : source_class) : N :=
  match C with
  | class_simple_numeric_source _ => 48
  | class_disabled_data_source => 48
  end%N.

Definition NaN_address : N := 8.
Definition uptime_address : N := 16.
Definition unavailable_text : string := "unavailable".

(** The static NaN and one scalar of the collector, 120.5. *)
Definition memory0 : mem :=
  <[uptime_address := s_double 120.5%float]>
    (<[NaN_address := s_float S754_nan]> ∅).

(** A Lua state whose registry holds the data-source metatable, table 1. *)
Definition lua0 : lua.state :=
  {| lua.stack := [];
     lua.registry := <[data_source_metatable := LTable 1]> ∅;
     lua.globals := ∅;
     lua.tables := <[1%N := {| fields := ∅; t_metatable := None |}]> ∅;
     lua.userdata := ∅;
     lua.type_metatable := ∅ |}.

Definition uptime_factory : cpp_function :=
  bind_factory (class_simple_numeric_source c_double) "uptime" uptime_address.

Definition nvidia_factory : cpp_function :=
  bind_factory class_disabled_data_source "nvidia_temp" "BUILD_NVIDIA".

Definition calls0 : list (string * cpp_function) :=
  [("uptime", uptime_factory); ("nvidia_temp", nvidia_factory)].

Definition data_sources0 : data_sources_t :=
  <["nvidia_temp" := nvidia_factory]> (<["uptime" := uptime_factory]> ∅).

(** The object [uptime_factory] constructs. *)
Definition uptime_source : object :=
  obj_simple_numeric c_double
    (simple_numeric_source_ctor c_double lua0 "uptime" uptime_address).

(** The object [nvidia_factory] constructs: its pointer is the static
    NaN. *)
Definition nvidia_source : object :=
  obj_disabled
    {| dds_base := simple_numeric_source_ctor c_float lua0 "nvidia_temp" NaN_address |}.

(** [lua0] after a script has called [uptime()]: the object sits in
    userdata 0. *)
Definition lua1 : lua.state :=
  {| lua.stack := [LUserdata 0];
     lua.registry := lua.registry lua0;
     lua.globals := ∅;
     lua.tables := lua.tables lua0;
     lua.userdata :=
       <[0%N := {| ud_size := 48; ud_object := Some uptime_source;
                   ud_metatable := Some 1%N |}]> ∅;
     lua.type_metatable := ∅ |}.

Definition world1 : world := {| w_mem := memory0; w_lua := lua1 |}.


(** *** The float of the disabled source *)

(** Modelled from the spec: the translation unit that defines the
    constructor of [disabled_data_source] is not among the sources.  The
    float its constructor points at is an object of that unit, which
    "always reports unavailable": when the program starts, static
    initialisation has put NaN in it, whatever else memory [m] holds. *)
Definition static_initialization (m : mem) : mem :=
  store c_float NaN S754_nan m.

(** The action is no assignment to the scalar at [p]: the collector
    assigns its own scalars, and the float of the disabled source is
    none of them. *)
Definition stores_elsewhere (p : N) (act : action) : bool :=
  match act with
  | act_store _ q _ => negb (q =? p)%N
  | _ => true
  end.

(** The collector's memory before static initialisation: its uptime
    scalar, 120.5. *)
Definition collector_memory : mem :=
  <[uptime_address := s_double 120.5%float]> ∅.

(** A run: the collector assigns its scalar, a script calls
    [nvidia_temp("ignored")], and the handle it gets, 0, is queried. *)
Definition run0 : list action :=
  [act_store c_double uptime_address 2600%float;
   act_invoke nvidia_factory [LString "ignored"];
   act_get_number 0;
   act_get_text 0].

(** *** The factory for any class *)

(** [register_data_source<T>::factory] with the class [T] left open, as
    the template has it: [size] is [sizeof(T)], and [ctor l name] is
    [T(l, name, args...)] with the captured arguments, for a constructor
    that reads the state it is handed (as the header's comment on
    [simple_numeric_source] suggests, to "decide which variable to
    return").  The statements are those of [factory], one by one. *)
Definition factory_of (size : N) (ctor : lua.state -> string -> object)
    (l : lua.state) (name_ : string) : option (Z * lua.state) :=
  let '(t, l) := lua.newuserdata size l in
  l ← lua.insert 1 l;
  l ← lua.placement_new t (ctor l name_) l;
  l ← lua.settop 1 l;
  l ← lua.rawgetfield lua.REGISTRYINDEX data_source_metatable l;
  l ← lua.setmetatable (-2) l;
  Some (1%Z, l).

(** The state a constructor is handed by the factory called on [l]: the
    new, still empty block of [size] bytes, its handle at index 1 and the
    caller's stack above it. *)
Definition at_construction (size : N) (l : lua.state) : lua.state :=
  let a := fresh (dom (lua.userdata l)) in
  let block := {| ud_size := size; ud_object := None; ud_metatable := None |} in
  lua.with_stack (LUserdata a :: lua.stack l)
    (lua.with_userdata (<[a := block]> (lua.userdata l)) l).

(** A Lua state with nothing in it: no metatable has been registered. *)
Definition lua_bare : lua.state :=
  {| lua.stack := [LString "argument"];
     lua.registry := ∅;
     lua.globals := ∅;
     lua.tables := ∅;
     lua.userdata := ∅;
     lua.type_metatable := ∅ |}.

(** A constructor that reads the script's first argument, at index 2,
    to pick the scalar its source reads. *)
Definition choosing_ctor (l : lua.state) (name_ : string) : object :=
  obj_simple_numeric c_double
    {| sns_base := {| name := name_ |};
       source := match lua.stack l !! 1%nat with
                 | Some (LString s) =>
                     if String.eqb s "uptime" then uptime_address
                     else NaN_address
                 | _ => NaN_address
                 end |}.

(** *** Lemmas on memory and on the Lua API *)

Lemma load_store T p (x : cval T) (m : mem) :
  load T (store T p x m) p = Some x.
Proof.
  unfold load, store. rewrite lookup_insert_eq.
  destruct T; reflexivity.
Qed.

Lemma construct_state C l1 l2 name_ args :
  construct C l1 name_ args = construct C l2 name_ args.
Proof. destruct C; reflexivity. Qed.

Lemma insert_1_push v l :
  lua.insert 1 (lua.push v l) = Some (lua.with_stack (v :: lua.stack l) l).
Proof.
  unfold lua.insert, lua.position, lua.gettop, lua.push; simpl.
  rewrite length_app; simpl.
  rewrite decide_True by lia; simpl.
  rewrite last_snoc; simpl.
  replace (length (lua.stack l) + 1 - 1) with (length (lua.stack l)) by lia.
  rewrite take_app_length. reflexivity.
Qed.

Lemma settop_1_cons v st l :
  lua.settop 1 (lua.with_stack (v :: st) l) = Some (lua.with_stack [v] l).
Proof. unfold lua.settop; simpl. reflexivity. Qed.

Lemma setmetatable_userdata a top mt l u :
  lua.userdata l !! a = Some u ->
  match top with LNil => Some None | LTable r => Some (Some r) | _ => None end = mt ->
  lua.setmetatable (-2) (lua.with_stack [LUserdata a; top] l)
  = mt' ← mt;
    Some (lua.with_stack [LUserdata a]
            (lua.with_userdata
               (<[a := {| ud_size := ud_size u; ud_object := ud_object u;
                          ud_metatable := mt' |}]> (lua.userdata l)) l)).
Proof.
  intros Hu <-. unfold lua.setmetatable; simpl.
  destruct top; simpl; try reflexivity; rewrite Hu; reflexivity.
Qed.

Lemma factory_eq C l name_ args :
  factory C l name_ args
  = (mt ← metatable_slot l; Some (1%Z, constructed C l name_ args mt)).
Proof.
  unfold factory, lua.newuserdata.
  rewrite insert_1_push; simpl.
  unfold lua.placement_new; simpl. rewrite lookup_insert_eq; simpl.
  rewrite insert_insert_eq.
  unfold lua.rawgetfield; simpl.
  unfold lua.push; simpl. rewrite take_0.
  erewrite setmetatable_userdata; [| simpl; apply lookup_insert_eq | reflexivity].
  unfold metatable_slot, constructed; simpl.
  destruct (default LNil (lua.registry l !! data_source_metatable));
    simpl; try reflexivity;
    rewrite insert_insert_eq, (construct_state C _ l); reflexivity.
Qed.

(** With nothing under the key in the registry, the factory still
    returns the object, with no metatable: the tag of C8 is the
    registry's table, not the factory's own. *)
Lemma factory_without_metatable C (l : lua.state) name_ (args : ctor_args C) :
  lua.registry l !! data_source_metatable = None ->
  factory C l name_ args = Some (1%Z, constructed C l name_ args None).
Proof.
  intros Hreg. rewrite factory_eq. unfold metatable_slot.
  rewrite Hreg. reflexivity.
Qed.

(** The rounding of the rendering is to a nearest integer: the error is
    at most half a unit. *)
Lemma round_half_even_nearest (n d : Z) :
  (0 < d)%Z ->
  (Z.abs (2 * (round_half_even n d * d - n)) <= d)%Z.
Proof.
  intros Hd. unfold round_half_even.
  pose proof (Z.div_mod n d ltac:(lia)) as Hdiv.
  pose proof (Z.mod_pos_bound n d Hd) as Hmod.
  destruct (Z.compare_spec (2 * (n mod d)) d) as [Heq | Hlt | Hgt].
  - destruct (Z.even (n / d)); nia.
  - nia.
  - nia.
Qed.

(** *** The query methods *)

Lemma simple_numeric_source_get_number_eq T l name_ p (m : mem) :
  get_number m (obj_simple_numeric T (simple_numeric_source_ctor T l name_ p))
  = to_double T <$> load T m p.
Proof. reflexivity. Qed.

(** C1: [get_number()] of a [simple_numeric_source] reads the scalar
    behind its pointer when it is called.  A source constructed while
    the scalar holds [x] returns [x] (converted to double); after the
    scalar is assigned [y], in whatever memory the program has reached,
    the same object returns [y], never the value seen at construction;
    at every call the result is the scalar's current value. *)
Theorem get_number_reads_current_value T l name_ p (m : mem) (x y : cval T) :
  let s := obj_simple_numeric T (simple_numeric_source_ctor T l name_ p) in
  get_number (store T p x m) s = Some (to_double T x)
  /\ (forall m' : mem, get_number (store T p y m') s = Some (to_double T y))
  /\ (forall m' : mem, get_number m' s = to_double T <$> load T m' p).
Proof.
  intros s. subst s. split; [| split].
  - rewrite simple_numeric_source_get_number_eq, load_store. reflexivity.
  - intros m'. rewrite simple_numeric_source_get_number_eq, load_store.
    reflexivity.
  - intros m'. apply simple_numeric_source_get_number_eq.
Qed.

Lemma disabled_reads_nan l name_ setting (m : mem) :
  load c_float m NaN = Some S754_nan ->
  get_number m (obj_disabled (disabled_data_source_ctor l name_ setting))
  = Some nan.
Proof.
  intros Hnan. simpl. unfold simple_numeric_source_get_number. simpl.
  rewrite Hnan. reflexivity.
Qed.

(** C6: a data source whose class does not override [get_number] gets
    the default of the base class, which returns NaN. *)
Theorem default_get_number_is_nan (m : mem) (o : object) :
  overrides_get_number o = false ->
  get_number m o = Some nan.
Proof.
  destruct o; simpl; intros H; try discriminate. reflexivity.
Qed.

(** C10: the constructor of [simple_numeric_source] does not look at
    the Lua state it is handed, so neither at the table or arguments a
    script left on its stack: constructed with the same name and the
    same pointer on two states, the two objects are equal, their
    [get_number()] results agree in every memory, and that result is
    the current value of the scalar pointed to. *)
Theorem simple_numeric_source_ignores_state T (l1 l2 : lua.state) name_ p
    (m : mem) :
  simple_numeric_source_ctor T l1 name_ p = simple_numeric_source_ctor T l2 name_ p
  /\ construct (class_simple_numeric_source T) l1 name_ p
     = construct (class_simple_numeric_source T) l2 name_ p
  /\ get_number m (construct (class_simple_numeric_source T) l1 name_ p)
     = get_number m (construct (class_simple_numeric_source T) l2 name_ p)
  /\ get_number m (construct (class_simple_numeric_source T) l1 name_ p)
     = to_double T <$> load T m p.
Proof. repeat split. Qed.

Lemma get_text_is_default (m : mem) (o : object) :
  get_text m o = data_source_base_get_text m o.
Proof. destruct o; reflexivity. Qed.

(** C5: no class of the header overrides [get_text], so every data
    source has the default one, and its text follows the number
    [get_number()] returns: for a finite value it is the fixed-precision
    decimal rendering of that value, for NaN it is the unavailability
    string and not a rendering. *)
Theorem default_get_text_follows_number (m : mem) (o : object) (v : double) :
  overrides_get_text o = false ->
  get_number m o = Some v ->
  (is_finite v = true -> get_text m o = Some (render_fixed precision v))
  /\ (PrimFloat.is_nan v = true -> get_text m o = Some unavailable).
Proof.
  intros _ Hv.
  rewrite get_text_is_default. unfold data_source_base_get_text.
  rewrite Hv. simpl. split.
  - unfold is_finite. intros Hfin.
    apply andb_prop in Hfin as [Hn _].
    apply negb_true_iff in Hn. rewrite Hn. reflexivity.
  - intros Hn. rewrite Hn. reflexivity.
Qed.

(** *** Registry, export and calls *)

Lemma export_data_sources_spec (ds : data_sources_t) (l : lua.state) :
  let l' := export_data_sources ds l in
  lua.stack l' = lua.stack l
  /\ lua.registry l' = lua.registry l
  /\ lua.tables l' = lua.tables l
  /\ lua.userdata l' = lua.userdata l
  /\ lua.type_metatable l' = lua.type_metatable l
  /\ forall k, lua.globals l' !! k
               = match ds !! k with
                 | Some fn => Some (LFunction fn)
                 | None => lua.globals l !! k
                 end.
Proof.
  unfold export_data_sources.
  apply (map_fold_weak_ind
           (fun (r : lua.state) (m : data_sources_t) =>
              lua.stack r = lua.stack l
              /\ lua.registry r = lua.registry l
              /\ lua.tables r = lua.tables l
              /\ lua.userdata r = lua.userdata l
              /\ lua.type_metatable r = lua.type_metatable l
              /\ forall k, lua.globals r !! k
                           = match m !! k with
                             | Some fn => Some (LFunction fn)
                             | None => lua.globals l !! k
                             end)).
  - repeat split; intros k; rewrite lookup_empty; reflexivity.
  - intros i fn m r Hi (Hs & Hr & Ht & Hu & Hm & Hg).
    repeat split; simpl; try assumption.
    intros k. destruct (decide (i = k)) as [-> | Hne].
    + rewrite !lookup_insert_eq. reflexivity.
    + rewrite !lookup_insert_ne by assumption. apply Hg.
Qed.

Lemma metatable_slot_export (ds : data_sources_t) (l : lua.state) :
  metatable_slot (export_data_sources ds l) = metatable_slot l.
Proof.
  unfold metatable_slot.
  destruct (export_data_sources_spec ds l) as (_ & -> & _). reflexivity.
Qed.

Lemma invoke_eq C name_ (a : ctor_args C) (args : list value) (l : lua.state) :
  invoke (bind_factory C name_ a) args l
  = (mt ← metatable_slot l;
     Some ([LUserdata (fresh (dom (lua.userdata l)))],
           lua.with_stack (lua.stack l)
             (constructed C (lua.with_stack args l) name_ a mt))).
Proof.
  unfold invoke, call. rewrite factory_eq.
  change (metatable_slot (lua.with_stack args l)) with (metatable_slot l).
  destruct (metatable_slot l); reflexivity.
Qed.

Lemma fresh_block_unused (l : lua.state) :
  lua.userdata l !! fresh (dom (lua.userdata l)) = None.
Proof. apply not_elem_of_dom, is_fresh. Qed.

Lemma do_register_data_source_lookup name_ fn (ds ds' : data_sources_t) :
  do_register_data_source name_ fn ds = Some ds' ->
  ds' = <[name_ := fn]> ds.
Proof.
  unfold do_register_data_source.
  destruct (ds !! name_), policy; congruence.
Qed.

(** A name that is bound stays bound, to the same function or to one of
    a later call for the same name. *)
Lemma do_register_all_keeps calls : forall (ds ds' : data_sources_t) k fn,
  do_register_all calls ds = Some ds' ->
  ds !! k = Some fn ->
  exists fn', ds' !! k = Some fn' /\ (fn' = fn \/ (k, fn') ∈ calls).
Proof.
  induction calls as [| [n f] rest IH]; simpl; intros ds ds' k fn Hall Hk.
  - injection Hall as <-. eauto.
  - destruct (do_register_data_source n f ds) as [ds1 |] eqn:Hreg;
      simpl in Hall; [| discriminate].
    apply do_register_data_source_lookup in Hreg. subst ds1.
    destruct (decide (n = k)) as [-> | Hne].
    + destruct (IH _ _ k f Hall) as (fn' & Hfn' & Hor).
      { apply lookup_insert_eq. }
      exists fn'. split; [assumption |]. right.
      destruct Hor as [-> | Hin]; [left | right; assumption].
    + destruct (IH _ _ k fn Hall) as (fn' & Hfn' & Hor).
      { rewrite lookup_insert_ne by assumption. assumption. }
      exists fn'. split; [assumption |].
      destruct Hor as [-> | Hin]; [left; reflexivity | right; right; assumption].
Qed.

Lemma do_register_all_binds calls : forall (ds ds' : data_sources_t) k,
  do_register_all calls ds = Some ds' ->
  k ∈ calls.*1 ->
  exists fn, ds' !! k = Some fn /\ (k, fn) ∈ calls.
Proof.
  induction calls as [| [n f] rest IH]; simpl; intros ds ds' k Hall Hk.
  - inversion Hk.
  - destruct (do_register_data_source n f ds) as [ds1 |] eqn:Hreg;
      simpl in Hall; [| discriminate].
    apply do_register_data_source_lookup in Hreg. subst ds1.
    destruct (decide (k ∈ rest.*1)) as [Hin | Hnin].
    + destruct (IH _ _ k Hall Hin) as (fn & Hfn & Hmem).
      exists fn. split; [assumption | right; assumption].
    + apply elem_of_cons in Hk as [-> | Hk]; [| contradiction].
      destruct (do_register_all_keeps rest _ _ n f Hall) as (fn' & Hfn' & Hor).
      { apply lookup_insert_eq. }
      exists fn'. split; [assumption |].
      destruct Hor as [-> | Hin]; [left | right; assumption].
Qed.

Lemma object_name_construct C (l : lua.state) name_ (args : ctor_args C) :
  object_name (construct C l name_ args) = name_.
Proof. destruct C; reflexivity. Qed.

(** What a step does to the Lua state: nothing, an export, or one
    factory call. *)
Lemma step_lua act w w' :
  step act w = Some w' ->
  w_lua w' = w_lua w
  \/ (exists ds, w_lua w' = export_data_sources ds (w_lua w))
  \/ (exists C name_ (a : ctor_args C) args mt,
        metatable_slot (w_lua w) = Some mt
        /\ w_lua w'
           = lua.with_stack (lua.stack (w_lua w))
               (constructed C (lua.with_stack args (w_lua w)) name_ a mt)).
Proof.
  destruct act as [a | a | T p x | [C name_ a] args | ds]; simpl; intros Hstep.
  - left. unfold call_get_number in Hstep.
    destruct (object_at a (w_lua w)); simpl in Hstep; [| discriminate].
    destruct (get_number (w_mem w) o); simpl in Hstep; [| discriminate].
    congruence.
  - left. unfold call_get_text in Hstep.
    destruct (object_at a (w_lua w)); simpl in Hstep; [| discriminate].
    destruct (get_text (w_mem w) o); simpl in Hstep; [| discriminate].
    congruence.
  - left. injection Hstep as <-. reflexivity.
  - right; right. rewrite invoke_eq in Hstep.
    destruct (metatable_slot (w_lua w)) as [mt |] eqn:Hmt;
      simpl in Hstep; [| discriminate].
    injection Hstep as <-. exists C, name_, a, args, mt. split; reflexivity.
  - right; left. injection Hstep as <-. exists ds. reflexivity.
Qed.

(** The blocks that exist are not touched by a step. *)
Lemma step_keeps_blocks act w w' a u :
  step act w = Some w' ->
  lua.userdata (w_lua w) !! a = Some u ->
  lua.userdata (w_lua w') !! a = Some u.
Proof.
  intros Hstep Hu.
  destruct (step_lua _ _ _ Hstep)
    as [-> | [[ds ->] | (C & name_ & ca & args & mt & _ & ->)]].
  - assumption.
  - destruct (export_data_sources_spec ds (w_lua w)) as (_ & _ & _ & -> & _).
    assumption.
  - simpl. rewrite lookup_insert_ne; [assumption |].
    intros Heq. rewrite <- Heq, fresh_block_unused in Hu. discriminate.
Qed.

Lemma step_keeps_tag act w w' r :
  step act w = Some w' ->
  lua.registry (w_lua w) !! data_source_metatable = Some (LTable r) ->
  all_tagged r (w_lua w) ->
  lua.registry (w_lua w') = lua.registry (w_lua w)
  /\ lua.tables (w_lua w') = lua.tables (w_lua w)
  /\ all_tagged r (w_lua w').
Proof.
  intros Hstep Hreg Htag.
  destruct (step_lua _ _ _ Hstep)
    as [-> | [[ds ->] | (C & name_ & ca & args & mt & Hmt & ->)]].
  - auto.
  - destruct (export_data_sources_spec ds (w_lua w))
      as (_ & Hr & Ht & Hu & _).
    repeat split; try assumption.
    unfold all_tagged. rewrite Hu. exact Htag.
  - repeat split. intros a u o Hu Ho. simpl in Hu.
    destruct (decide (fresh (dom (lua.userdata (w_lua w))) = a)) as [<- | Hne].
    + rewrite lookup_insert_eq in Hu. injection Hu as <-. simpl.
      unfold metatable_slot in Hmt. rewrite Hreg in Hmt. simpl in Hmt.
      congruence.
    + rewrite lookup_insert_ne in Hu by assumption. eapply Htag; eassumption.
Qed.

(** C7: the function [register_data_source<T>(name, args...)] puts in
    the registry sits there under [name]; called on a state, it
    allocates one new userdata of [sizeof(T)] bytes, constructs in it
    the [T] made from the captured name and arguments, leaves the
    other blocks alone and its handle on the stack, and the object's
    [name] is the name it was registered under. *)
Theorem registered_factory_constructs_in_place C name_ (args : ctor_args C)
    (ds ds' : data_sources_t) (l : lua.state) (mt : option N) :
  register_data_source C name_ args ds = Some ds' ->
  metatable_slot l = Some mt ->
  exists fn a l',
    ds' !! name_ = Some fn
    /\ call fn l = Some (1%Z, l')
    /\ lua.userdata l !! a = None
    /\ lua.stack l' = [LUserdata a]
    /\ lua.userdata l'
       = <[a := {| ud_size := sizeof C;
                   ud_object := Some (construct C l name_ args);
                   ud_metatable := mt |}]> (lua.userdata l)
    /\ object_name (construct C l name_ args) = name_.
Proof.
  intros Hreg Hmt.
  apply do_register_data_source_lookup in Hreg. subst ds'.
  exists (bind_factory C name_ args), (fresh (dom (lua.userdata l))),
    (constructed C l name_ args mt).
  repeat split.
  - apply lookup_insert_eq.
  - simpl. rewrite factory_eq, Hmt. reflexivity.
  - apply fresh_block_unused.
  - apply object_name_construct.
Qed.

(** C8: with the metatable [r] under "conky::data_source_metatable" in
    the registry, a factory of any class returns an object already
    tagged with [r]; the factory makes no table and leaves the registry
    as it was, so however many objects of whatever classes the program
    goes on to construct, all of them carry that one metatable. *)
Theorem factory_tags_with_shared_metatable (w : world) (r : N) :
  lua.registry (w_lua w) !! data_source_metatable = Some (LTable r) ->
  all_tagged r (w_lua w) ->
  (forall C name_ (args : ctor_args C),
     exists a l',
       factory C (w_lua w) name_ args = Some (1%Z, l')
       /\ lua.stack l' = [LUserdata a]
       /\ object_at a l' = Some (construct C (w_lua w) name_ args)
       /\ ud_metatable <$> lua.userdata l' !! a = Some (Some r)
       /\ lua.tables l' = lua.tables (w_lua w)
       /\ lua.registry l' = lua.registry (w_lua w))
  /\ (forall acts w',
        run acts w = Some w' ->
        lua.registry (w_lua w') !! data_source_metatable = Some (LTable r)
        /\ lua.tables (w_lua w') = lua.tables (w_lua w)
        /\ all_tagged r (w_lua w')).
Proof.
  intros Hreg Htag. split.
  - intros C name_ args.
    exists (fresh (dom (lua.userdata (w_lua w)))),
      (constructed C (w_lua w) name_ args (Some r)).
    repeat split.
    + rewrite factory_eq. unfold metatable_slot. rewrite Hreg. reflexivity.
    + unfold object_at. simpl. rewrite lookup_insert_eq. reflexivity.
    + simpl. rewrite lookup_insert_eq. reflexivity.
  - intros acts. revert w Hreg Htag.
    induction acts as [| act rest IH]; simpl; intros w Hreg Htag w' Hrun.
    + injection Hrun as <-. auto.
    + destruct (step act w) as [w1 |] eqn:Hstep; simpl in Hrun; [| discriminate].
      destruct (step_keeps_tag _ _ _ _ Hstep Hreg Htag) as (Hr1 & Ht1 & Htag1).
      destruct (IH w1) with (w' := w') as (Hr' & Ht' & Htag');
        [rewrite Hr1; assumption | assumption | assumption |].
      repeat split; [assumption | congruence | assumption].
Qed.

(** C4: after the export, every name for which
    [do_register_data_source] was called is bound in the global
    namespace to exactly one value, the function of one of the
    registrations under that name; calling it, with any arguments,
    returns one result, the handle of a data-source object that was not
    there before. *)
Theorem export_binds_every_registered_name
    (calls : list (string * cpp_function)) (ds : data_sources_t)
    (l : lua.state) (mt : option N) (key : string) :
  do_register_all calls ∅ = Some ds ->
  metatable_slot l = Some mt ->
  key ∈ calls.*1 ->
  exists fn,
    (key, fn) ∈ calls
    /\ (forall v, lua.globals (export_data_sources ds l) !! key = Some v
                  <-> v = LFunction fn)
    /\ forall args, exists a l' o,
         invoke fn args (export_data_sources ds l) = Some ([LUserdata a], l')
         /\ object_at a (export_data_sources ds l) = None
         /\ object_at a l' = Some o.
Proof.
  intros Hall Hmt Hkey.
  destruct (do_register_all_binds _ _ _ _ Hall Hkey) as (fn & Hfn & Hin).
  exists fn. split; [assumption |].
  destruct (export_data_sources_spec ds l) as (_ & _ & _ & Hu & _ & Hg).
  split.
  - intros v. rewrite Hg, Hfn. split; congruence.
  - intros args. destruct fn as [C name_ a].
    rewrite invoke_eq, metatable_slot_export, Hmt. simpl.
    eexists _, _, _. split; [reflexivity |]. split.
    + unfold object_at. rewrite fresh_block_unused. reflexivity.
    + unfold object_at. simpl. rewrite lookup_insert_eq. reflexivity.
Qed.

(** C9: [get_number()] and [get_text()] only observe: a call of either
    on a handle hands back the program state it was given.  And the
    object behind a handle, its [name] with it, is the same after any
    sequence of method calls, assignments to scalars, constructor calls
    and exports; the name is the one given at construction. *)
Theorem queries_leave_objects_unchanged (a : N) (o : object) (w : world) :
  object_at a (w_lua w) = Some o ->
  (forall v w', call_get_number a w = Some (v, w') -> w' = w)
  /\ (forall t w', call_get_text a w = Some (t, w') -> w' = w)
  /\ (forall acts w',
        run acts w = Some w' ->
        object_at a (w_lua w') = Some o
        /\ object_name <$> object_at a (w_lua w') = Some (object_name o))
  /\ (forall C (l : lua.state) name_ (args : ctor_args C),
        object_name (construct C l name_ args) = name_).
Proof.
  intros Ho. split; [| split; [| split]].
  - intros v w'. unfold call_get_number. rewrite Ho. simpl.
    destruct (get_number (w_mem w) o); simpl; congruence.
  - intros t w'. unfold call_get_text. rewrite Ho. simpl.
    destruct (get_text (w_mem w) o); simpl; congruence.
  - intros acts. revert w Ho.
    induction acts as [| act rest IH]; simpl; intros w Ho w' Hrun.
    + injection Hrun as <-. rewrite Ho. split; reflexivity.
    + destruct (step act w) as [w1 |] eqn:Hstep; simpl in Hrun; [| discriminate].
      apply (IH w1); [| assumption].
      unfold object_at in *.
      destruct (lua.userdata (w_lua w) !! a) as [u |] eqn:Hu; [| discriminate].
      rewrite (step_keeps_blocks _ _ _ _ _ Hstep Hu). assumption.
  - intros C l name_ args. apply object_name_construct.
Qed.

(** *** More on the factory and on the numeric source *)

Lemma factory_after_insert size (o : object) (l : lua.state) :
  (l1 ← lua.placement_new (fresh (dom (lua.userdata l))) o (at_construction size l);
   l2 ← lua.settop 1 l1;
   l3 ← lua.rawgetfield lua.REGISTRYINDEX data_source_metatable l2;
   l4 ← lua.setmetatable (-2) l3;
   Some (1%Z, l4))
  = (mt ← metatable_slot l;
     Some (1%Z,
           {| lua.stack := [LUserdata (fresh (dom (lua.userdata l)))];
              lua.registry := lua.registry l;
              lua.globals := lua.globals l;
              lua.tables := lua.tables l;
              lua.userdata :=
                <[fresh (dom (lua.userdata l)) :=
                    {| ud_size := size; ud_object := Some o;
                       ud_metatable := mt |}]> (lua.userdata l);
              lua.type_metatable := lua.type_metatable l |})).
Proof.
  unfold at_construction, lua.placement_new; simpl.
  rewrite lookup_insert_eq; simpl.
  rewrite insert_insert_eq.
  unfold lua.rawgetfield; simpl.
  unfold lua.push; simpl. rewrite take_0.
  erewrite setmetatable_userdata; [| simpl; apply lookup_insert_eq | reflexivity].
  unfold metatable_slot; simpl.
  destruct (default LNil (lua.registry l !! data_source_metatable));
    simpl; try reflexivity; rewrite insert_insert_eq; reflexivity.
Qed.

Lemma factory_of_eq size ctor (l : lua.state) name_ :
  factory_of size ctor l name_
  = (mt ← metatable_slot l;
     Some (1%Z,
           {| lua.stack := [LUserdata (fresh (dom (lua.userdata l)))];
              lua.registry := lua.registry l;
              lua.globals := lua.globals l;
              lua.tables := lua.tables l;
              lua.userdata :=
                <[fresh (dom (lua.userdata l)) :=
                    {| ud_size := size;
                       ud_object := Some (ctor (at_construction size l) name_);
                       ud_metatable := mt |}]> (lua.userdata l);
              lua.type_metatable := lua.type_metatable l |})).
Proof.
  unfold factory_of, lua.newuserdata.
  rewrite insert_1_push.
  exact (factory_after_insert size (ctor (at_construction size l) name_) l).
Qed.

(** The factory returns on every stack, empty or not, and returns one
    result, its handle alone on the stack; it has no defined result
    exactly when the registry holds, under the metatable's key, a value
    that is neither a table nor nil. *)
Theorem factory_returns_unless_slot_is_misused C (l : lua.state) name_
    (args : ctor_args C) :
  (factory C l name_ args = None
   <-> exists v, lua.registry l !! data_source_metatable = Some v
                 /\ v <> LNil /\ forall r, v <> LTable r)
  /\ (forall n l', factory C l name_ args = Some (n, l') ->
        n = 1%Z /\ length (lua.stack l') = 1%nat
        /\ lua.stack l' = [LUserdata (fresh (dom (lua.userdata l)))]).
Proof.
  rewrite factory_eq. unfold metatable_slot. split.
  - destruct (lua.registry l !! data_source_metatable) as [v |] eqn:Hv; simpl.
    + split.
      * intros Hnone. exists v. split; [reflexivity |].
        destruct v; simpl in Hnone; try discriminate;
          split; try discriminate; intros r; discriminate.
      * intros (v' & Hv' & Hnil & Htab). injection Hv' as <-.
        destruct v; simpl; try reflexivity.
        -- contradiction.
        -- exfalso. apply (Htab r). reflexivity.
    + split; [discriminate |]. intros (v & Hv' & _). discriminate.
  - intros n l' Hret.
    destruct (match default LNil (lua.registry l !! data_source_metatable) with
              | LNil => Some None
              | LTable r => Some (Some r)
              | _ => None
              end) as [mt |]; simpl in Hret; [| discriminate].
    injection Hret as <- <-. repeat split.
Qed.

(** Called while nothing is registered under the metatable's key, the
    factory does not fail: it returns the handle of the constructed
    object, and the object has no metatable. *)
Theorem factory_before_metatable_is_registered C (l : lua.state) name_
    (args : ctor_args C) :
  lua.registry l !! data_source_metatable = None ->
  exists a l',
    factory C l name_ args = Some (1%Z, l')
    /\ lua.stack l' = [LUserdata a]
    /\ object_at a l' = Some (construct C l name_ args)
    /\ ud_metatable <$> lua.userdata l' !! a = Some None.
Proof.
  intros Hreg.
  exists (fresh (dom (lua.userdata l))), (constructed C l name_ args None).
  split; [apply factory_without_metatable; assumption |].
  split; [reflexivity |].
  unfold object_at. simpl. rewrite lookup_insert_eq. split; reflexivity.
Qed.

(** What a script passes to a bound constructor does not reach the
    result: on two stacks over the same state, the factory of a class of
    this header returns the same count and leaves the same state, the
    arguments gone from the stack. *)
Theorem factory_drops_script_arguments C (l : lua.state) name_
    (args : ctor_args C) (stack1 stack2 : list value) :
  factory C (lua.with_stack stack1 l) name_ args
  = factory C (lua.with_stack stack2 l) name_ args.
Proof.
  rewrite !factory_eq.
  change (metatable_slot (lua.with_stack stack1 l)) with (metatable_slot l).
  change (metatable_slot (lua.with_stack stack2 l)) with (metatable_slot l).
  destruct (metatable_slot l) as [mt |]; simpl; [| reflexivity].
  unfold constructed. simpl.
  rewrite (construct_state C (lua.with_stack stack1 l) (lua.with_stack stack2 l)).
  reflexivity.
Qed.

(** A factory call changes one thing: it adds one userdata.  The
    registry, the globals, the tables and the metatables of the basic
    types are as before, every block that existed is as it was, and the
    number of blocks is one more. *)
Theorem factory_adds_one_block_only C (l l' : lua.state) name_
    (args : ctor_args C) (n : Z) :
  factory C l name_ args = Some (n, l') ->
  lua.registry l' = lua.registry l
  /\ lua.globals l' = lua.globals l
  /\ lua.tables l' = lua.tables l
  /\ lua.type_metatable l' = lua.type_metatable l
  /\ (forall b u, lua.userdata l !! b = Some u -> lua.userdata l' !! b = Some u)
  /\ size (lua.userdata l') = S (size (lua.userdata l)).
Proof.
  rewrite factory_eq.
  destruct (metatable_slot l) as [mt |]; simpl; [| discriminate].
  intros Hret. injection Hret as <- <-. simpl.
  repeat split.
  - intros b u Hb. rewrite lookup_insert_ne; [assumption |].
    intros Heq. rewrite <- Heq, fresh_block_unused in Hb. discriminate.
  - apply map_size_insert_None, fresh_block_unused.
Qed.

(** Two factory calls, one after the other, give two different handles,
    and both objects are there afterwards: the second call constructs
    its own object and leaves the first one, block and metatable, as it
    was. *)
Theorem factory_twice_gives_two_objects C1 C2 (l l1 l2 : lua.state)
    name1 name2 (args1 : ctor_args C1) (args2 : ctor_args C2) (n1 n2 : Z) :
  factory C1 l name1 args1 = Some (n1, l1) ->
  factory C2 l1 name2 args2 = Some (n2, l2) ->
  exists a1 a2,
    lua.stack l1 = [LUserdata a1]
    /\ lua.stack l2 = [LUserdata a2]
    /\ a1 <> a2
    /\ object_at a1 l2 = Some (construct C1 l name1 args1)
    /\ object_at a2 l2 = Some (construct C2 l1 name2 args2)
    /\ lua.userdata l2 !! a1 = lua.userdata l1 !! a1.
Proof.
  rewrite !factory_eq.
  destruct (metatable_slot l) as [mt1 |]; simpl; [| discriminate].
  intros H1. injection H1 as <- <-.
  destruct (metatable_slot (constructed C1 l name1 args1 mt1)) as [mt2 |];
    simpl; [| discriminate].
  intros H2. injection H2 as <- <-.
  set (a1 := fresh (dom (lua.userdata l))).
  set (a2 := fresh (dom (lua.userdata (constructed C1 l name1 args1 mt1)))).
  assert (Hne : a2 <> a1).
  { intros Heq.
    pose proof (fresh_block_unused (constructed C1 l name1 args1 mt1)) as Hnone.
    fold a2 in Hnone. rewrite Heq in Hnone. simpl in Hnone.
    fold a1 in Hnone. rewrite lookup_insert_eq in Hnone. discriminate. }
  exists a1, a2. split; [reflexivity |]. split; [reflexivity |].
  split; [congruence |].
  unfold object_at. simpl. fold a1. fold a2.
  rewrite lookup_insert_ne by assumption.
  rewrite !lookup_insert_eq. simpl.
  repeat split.
Qed.

(** The number of a [simple_numeric_source] depends on the scalar behind
    its pointer and on nothing else: an assignment to a scalar at another
    address does not change it, and two sources on the same pointer,
    whatever their names and the states they were constructed on, return
    the same number, so that both follow an assignment to the scalar. *)
Theorem get_number_depends_on_its_scalar_only T (l1 l2 : lua.state)
    name1 name2 p (m : mem) :
  let s1 := obj_simple_numeric T (simple_numeric_source_ctor T l1 name1 p) in
  let s2 := obj_simple_numeric T (simple_numeric_source_ctor T l2 name2 p) in
  (forall T' q (y : cval T'),
      q <> p -> get_number (store T' q y m) s1 = get_number m s1)
  /\ get_number m s1 = get_number m s2
  /\ (forall x : cval T,
        get_number (store T p x m) s1 = Some (to_double T x)
        /\ get_number (store T p x m) s2 = Some (to_double T x)).
Proof.
  intros s1 s2. subst s1 s2. split; [| split].
  - intros T' q y Hne.
    rewrite !simple_numeric_source_get_number_eq.
    unfold load, store. rewrite lookup_insert_ne by assumption. reflexivity.
  - reflexivity.
  - intros x. rewrite !simple_numeric_source_get_number_eq, !load_store.
    split; reflexivity.
Qed.

(** For any class, the constructor runs after [insert(1)]: the state it
    is handed has the handle of the new block at index 1, the block
    still without object or metatable, and every argument of the script
    one index higher than the script put it.  The object it returns is
    what the block holds in the end, and [factory] is this factory at the
    constructors of the header's classes. *)
Theorem factory_hands_constructor_shifted_stack size ctor (l : lua.state)
    name_ :
  let a := fresh (dom (lua.userdata l)) in
  lua.stack (at_construction size l) !! 0%nat = Some (LUserdata a)
  /\ (forall i, lua.stack (at_construction size l) !! S i = lua.stack l !! i)
  /\ lua.userdata (at_construction size l) !! a
     = Some {| ud_size := size; ud_object := None; ud_metatable := None |}
  /\ (forall n l',
        factory_of size ctor l name_ = Some (n, l') ->
        object_at a l' = Some (ctor (at_construction size l) name_)
        /\ lua.stack l' = [LUserdata a])
  /\ (forall C (args : ctor_args C),
        factory C l name_ args
        = factory_of (sizeof C) (fun l0 n0 => construct C l0 n0 args) l name_).
Proof.
  intros a. subst a. split; [reflexivity |]. split; [reflexivity |].
  split; [simpl; apply lookup_insert_eq |]. split.
  - intros n l'. rewrite factory_of_eq.
    destruct (metatable_slot l) as [mt |]; simpl; [| discriminate].
    intros Hret. injection Hret as <- <-.
    unfold object_at. simpl. rewrite lookup_insert_eq. split; reflexivity.
  - intros C args. reflexivity.
Qed.

(** Through the bridge nothing is snapshotted either: the handle the
    factory returns for a [simple_numeric_source<T>] on pointer [p]
    stands for an object whose number, in any later memory, is the value
    then stored at [p]. *)
Theorem factory_handle_reads_current_value T (l l' : lua.state) name_ p
    (n : Z) :
  factory (class_simple_numeric_source T) l name_ p = Some (n, l') ->
  exists a,
    lua.stack l' = [LUserdata a]
    /\ forall (m : mem) (x : cval T),
         (o ← object_at a l'; get_number (store T p x m) o)
         = Some (to_double T x).
Proof.
  rewrite factory_eq.
  destruct (metatable_slot l) as [mt |]; simpl; [| discriminate].
  intros Hret. injection Hret as <- <-.
  exists (fresh (dom (lua.userdata l))). split; [reflexivity |].
  intros m x. unfold object_at. simpl. rewrite lookup_insert_eq. simpl.
  unfold simple_numeric_source_get_number. simpl.
  rewrite load_store. reflexivity.
Qed.

(** *** The disabled source along a run *)

Lemma step_keeps_scalar act w w' p :
  stores_elsewhere p act = true ->
  step act w = Some w' ->
  w_mem w' !! p = w_mem w !! p.
Proof.
  destruct act as [a | a | T q x | fn args | ds]; simpl; intros Hact Hstep.
  - unfold call_get_number in Hstep.
    destruct (object_at a (w_lua w)); simpl in Hstep; [| discriminate].
    destruct (get_number (w_mem w) o); simpl in Hstep; [| discriminate].
    congruence.
  - unfold call_get_text in Hstep.
    destruct (object_at a (w_lua w)); simpl in Hstep; [| discriminate].
    destruct (get_text (w_mem w) o); simpl in Hstep; [| discriminate].
    congruence.
  - injection Hstep as <-. simpl. unfold store.
    apply lookup_insert_ne. intros ->.
    rewrite N.eqb_refl in Hact. discriminate.
  - destruct (invoke fn args (w_lua w)) as [[results l] |];
      simpl in Hstep; [| discriminate].
    injection Hstep as <-. reflexivity.
  - injection Hstep as <-. reflexivity.
Qed.

Lemma run_keeps_scalar acts : forall w w' p,
  forallb (stores_elsewhere p) acts = true ->
  run acts w = Some w' ->
  w_mem w' !! p = w_mem w !! p.
Proof.
  induction acts as [| act rest IH]; simpl; intros w w' p Hacts Hrun.
  - injection Hrun as <-. reflexivity.
  - apply andb_prop in Hacts as [Hact Hrest].
    destruct (step act w) as [w1 |] eqn:Hstep; simpl in Hrun; [| discriminate].
    rewrite (IH w1 w' p Hrest Hrun). eapply step_keeps_scalar; eassumption.
Qed.

(** The float of the disabled source holds NaN from static
    initialisation on, through every run that assigns other scalars
    only. *)
Lemma run_keeps_nan (m0 : mem) (l0 : lua.state) acts w' :
  forallb (stores_elsewhere NaN) acts = true ->
  run acts {| w_mem := static_initialization m0; w_lua := l0 |} = Some w' ->
  load c_float (w_mem w') NaN = Some S754_nan.
Proof.
  intros Hacts Hrun. unfold load.
  rewrite (run_keeps_scalar acts _ _ NaN Hacts Hrun). simpl.
  unfold static_initialization.
  exact (load_store c_float NaN S754_nan m0).
Qed.

Lemma invoke_disabled_handle name_ setting args a (l l' : lua.state) :
  invoke (bind_factory class_disabled_data_source name_ setting) args l
  = Some ([LUserdata a], l') ->
  object_at a l'
  = Some (obj_disabled (disabled_data_source_ctor (lua.with_stack args l) name_ setting)).
Proof.
  rewrite invoke_eq.
  destruct (metatable_slot l) as [mt |]; simpl; [| discriminate].
  intros Hret. injection Hret as <- <-.
  unfold object_at. simpl. rewrite lookup_insert_eq. reflexivity.
Qed.

(** C2: from the start of the program, where static initialisation has
    put NaN in the float the constructor of [disabled_data_source] points
    at, and along every run whose assignments go to other scalars, a
    disabled source of any name and setting returns NaN from
    [get_number()]: as an object, through any handle that stands for
    one, and through the handle a script gets by calling its bound
    constructor. *)
Theorem disabled_get_number_is_nan (m0 : mem) (l0 : lua.state)
    (acts : list action) (w' : world) :
  forallb (stores_elsewhere NaN) acts = true ->
  run acts {| w_mem := static_initialization m0; w_lua := l0 |} = Some w' ->
  (forall l name_ setting,
      get_number (w_mem w')
        (obj_disabled (disabled_data_source_ctor l name_ setting))
      = Some nan)
  /\ (forall a l name_ setting,
        object_at a (w_lua w')
        = Some (obj_disabled (disabled_data_source_ctor l name_ setting)) ->
        call_get_number a w' = Some (nan, w'))
  /\ (forall name_ setting args a l',
        invoke (bind_factory class_disabled_data_source name_ setting) args
          (w_lua w') = Some ([LUserdata a], l') ->
        call_get_number a {| w_mem := w_mem w'; w_lua := l' |}
        = Some (nan, {| w_mem := w_mem w'; w_lua := l' |})).
Proof.
  intros Hacts Hrun.
  pose proof (run_keeps_nan m0 l0 acts w' Hacts Hrun) as Hnan.
  split; [| split].
  - intros l name_ setting. apply disabled_reads_nan. exact Hnan.
  - intros a l name_ setting Hobj.
    pose proof (disabled_reads_nan l name_ setting _ Hnan) as Hnum.
    unfold call_get_number. rewrite Hobj.
    cbn [mbind option_bind]. rewrite Hnum. reflexivity.
  - intros name_ setting args a l' Hcall.
    apply invoke_disabled_handle in Hcall.
    pose proof (disabled_reads_nan (lua.with_stack args (w_lua w')) name_
                  setting _ Hnan) as Hnum.
    unfold call_get_number. cbn [w_lua w_mem]. rewrite Hcall.
    cbn [mbind option_bind]. rewrite Hnum. reflexivity.
Qed.

(** C3 (amended): a [disabled_data_source] has no [get_text] of its own
    and no field for the setting.  Every call of [get_text()] is the
    default of [data_source_base] on its number: from the start of the
    program and along every run whose assignments go to other scalars
    that number is NaN and the text is the unavailability string, as an
    object and through any handle; and in every memory the text is the
    same string for every setting the object was constructed with. *)
Theorem disabled_get_text_is_default (m0 : mem) (l0 : lua.state)
    (acts : list action) (w' : world) :
  forallb (stores_elsewhere NaN) acts = true ->
  run acts {| w_mem := static_initialization m0; w_lua := l0 |} = Some w' ->
  (forall l name_ setting,
      get_text (w_mem w')
        (obj_disabled (disabled_data_source_ctor l name_ setting))
      = Some unavailable)
  /\ (forall a l name_ setting,
        object_at a (w_lua w')
        = Some (obj_disabled (disabled_data_source_ctor l name_ setting)) ->
        call_get_text a w' = Some (unavailable, w'))
  /\ (forall (m : mem) l name_ setting setting',
        get_text m (obj_disabled (disabled_data_source_ctor l name_ setting'))
        = get_text m (obj_disabled (disabled_data_source_ctor l name_ setting))).
Proof.
  intros Hacts Hrun.
  pose proof (run_keeps_nan m0 l0 acts w' Hacts Hrun) as Hnan.
  assert (Htext : forall l name_ setting,
             get_text (w_mem w')
               (obj_disabled (disabled_data_source_ctor l name_ setting))
             = Some unavailable).
  { intros l name_ setting.
    rewrite get_text_is_default. unfold data_source_base_get_text.
    rewrite (disabled_reads_nan l name_ setting _ Hnan). reflexivity. }
  split; [exact Htext |]. split.
  - intros a l name_ setting Hobj. unfold call_get_text.
    rewrite Hobj. cbn [mbind option_bind]. rewrite Htext. reflexivity.
  - reflexivity.
Qed.

End DataSource.

(** ** The spec's scenarios, run *)

(** "X=2400.0 -> numeric()==2400.0; set X=2600.0 -> numeric()==2600.0 on
    the same handle." *)
Example numeric_2400_then_2600 :
  let s := obj_simple_numeric c_double
             (simple_numeric_source_ctor c_double lua0 "cpu_freq" 24%N) in
  let m := store c_double 24%N 2400%float memory0 in
  get_number m s = Some 2400%float
  /\ get_number (store c_double 24%N 2600%float m) s = Some 2600%float.
Proof. split; vm_compute; reflexivity. Qed.

(** "register "uptime" bound to a scalar initialized to 120.5 -> export ->
    call uptime() -> numeric() == 120.5 and text() == "120.500000"". *)
Example uptime_end_to_end :
  exists ds a l,
    register_data_source reject_duplicate (class_simple_numeric_source c_double)
      "uptime" uptime_address ∅ = Some ds
    /\ lua.globals (export_data_sources ds lua0) !! "uptime"
       = Some (LFunction uptime_factory)
    /\ invoke sizeof_lp64 NaN_address uptime_factory []
         (export_data_sources ds lua0) = Some ([LUserdata a], l)
    /\ call_get_number a {| w_mem := memory0; w_lua := l |}
       = Some (120.5%float, {| w_mem := memory0; w_lua := l |})
    /\ call_get_text 6 unavailable_text a {| w_mem := memory0; w_lua := l |}
       = Some ("120.500000", {| w_mem := memory0; w_lua := l |}).
Proof.
  eexists _, 0%N, _.
  split; [reflexivity |].
  split; [vm_compute; reflexivity |].
  split; [vm_compute; reflexivity |].
  split; vm_compute; reflexivity.
Qed.

(** A script calling [uptime()] on [lua0] leaves [lua1]. *)
Example uptime_call_gives_lua1 :
  factory sizeof_lp64 NaN_address (class_simple_numeric_source c_double) lua0
    "uptime" uptime_address = Some (1%Z, lua1)
  /\ construct NaN_address class_disabled_data_source lua0
       "nvidia_temp" "BUILD_NVIDIA" = nvidia_source.
Proof. split; vm_compute; reflexivity. Qed.

(** [register_disabled_data_source("nvidia_temp", "BUILD_NVIDIA")], the
    export and a call of [nvidia_temp()] give the handle of
    [nvidia_source]. *)
Example nvidia_temp_end_to_end :
  exists ds a l,
    register_disabled_data_source last_wins "nvidia_temp" "BUILD_NVIDIA" ∅
    = Some ds
    /\ lua.globals (export_data_sources ds lua0) !! "nvidia_temp"
       = Some (LFunction nvidia_factory)
    /\ invoke sizeof_lp64 NaN_address nvidia_factory [LString "ignored"]
         (export_data_sources ds lua0) = Some ([LUserdata a], l)
    /\ object_at a l = Some nvidia_source.
Proof.
  eexists _, 0%N, _.
  split; [reflexivity |].
  split; [vm_compute; reflexivity |].
  split; vm_compute; reflexivity.
Qed.

(** "DisabledSource("nvidia_temp", "BUILD_NVIDIA")": the number is NaN and
    the text is the unavailability string, with no "BUILD_NVIDIA" in it. *)
Example nvidia_temp_disabled :
  get_number memory0 nvidia_source = Some nan
  /\ get_text 6 unavailable_text memory0 nvidia_source = Some unavailable_text
  /\ contains unavailable_text "BUILD_NVIDIA" = false.
Proof.
  split; [vm_compute; reflexivity |].
  split; vm_compute; reflexivity.
Qed.

(** ** The theorems at the concrete program *)

(** C2 at [run0], started from the collector's memory after static
    initialisation and the Lua state [lua0]. *)
Lemma disabled_get_number_is_nan_witness :
  exists w',
    forallb (stores_elsewhere NaN_address) run0 = true
    /\ run sizeof_lp64 NaN_address 6 unavailable_text run0
         {| w_mem := static_initialization NaN_address collector_memory;
            w_lua := lua0 |} = Some w'
    /\ (forall l name_ setting,
          get_number (w_mem w')
            (obj_disabled (disabled_data_source_ctor NaN_address l name_ setting))
          = Some nan)
    /\ (forall a l name_ setting,
          object_at a (w_lua w')
          = Some (obj_disabled
                    (disabled_data_source_ctor NaN_address l name_ setting)) ->
          call_get_number a w' = Some (nan, w'))
    /\ (forall name_ setting args a l',
          invoke sizeof_lp64 NaN_address
            (bind_factory class_disabled_data_source name_ setting) args
            (w_lua w') = Some ([LUserdata a], l') ->
          call_get_number a {| w_mem := w_mem w'; w_lua := l' |}
          = Some (nan, {| w_mem := w_mem w'; w_lua := l' |})).
Proof.
  eexists.
  split; [reflexivity |].
  split; [vm_compute; reflexivity |].
  apply (disabled_get_number_is_nan sizeof_lp64 NaN_address 6 unavailable_text
           collector_memory lua0 run0).
  - reflexivity.
  - vm_compute; reflexivity.
Defined.

(** C6 at a plain [data_source_base]. *)
Lemma default_get_number_is_nan_witness :
  overrides_get_number (obj_base (data_source_base_ctor "plain")) = false
  /\ get_number memory0 (obj_base (data_source_base_ctor "plain")) = Some nan.
Proof.
  split; [reflexivity |].
  apply (default_get_number_is_nan memory0 (obj_base (data_source_base_ctor "plain"))).
  reflexivity.
Defined.

(** C5 at the uptime source: 120.5 reads "120.500000". *)
Lemma default_get_text_follows_number_witness :
  overrides_get_text uptime_source = false
  /\ get_number memory0 uptime_source = Some 120.5%float
  /\ is_finite 120.5%float = true
  /\ get_text 6 unavailable_text memory0 uptime_source = Some "120.500000".
Proof.
  split; [reflexivity |]. split; [reflexivity |]. split; [reflexivity |].
  exact (proj1 (default_get_text_follows_number 6 unavailable_text memory0
                  uptime_source 120.5%float eq_refl eq_refl) eq_refl).
Defined.

(** C3 (amended) at [run0], started from the collector's memory after
    static initialisation and the Lua state [lua0]. *)
Lemma disabled_get_text_is_default_witness :
  exists w',
    forallb (stores_elsewhere NaN_address) run0 = true
    /\ run sizeof_lp64 NaN_address 6 unavailable_text run0
         {| w_mem := static_initialization NaN_address collector_memory;
            w_lua := lua0 |} = Some w'
    /\ (forall l name_ setting,
          get_text 6 unavailable_text (w_mem w')
            (obj_disabled (disabled_data_source_ctor NaN_address l name_ setting))
          = Some unavailable_text)
    /\ (forall a l name_ setting,
          object_at a (w_lua w')
          = Some (obj_disabled
                    (disabled_data_source_ctor NaN_address l name_ setting)) ->
          call_get_text 6 unavailable_text a w' = Some (unavailable_text, w'))
    /\ (forall (m : mem) l name_ setting setting',
          get_text 6 unavailable_text m
            (obj_disabled (disabled_data_source_ctor NaN_address l name_ setting'))
          = get_text 6 unavailable_text m
              (obj_disabled (disabled_data_source_ctor NaN_address l name_ setting))).
Proof.
  eexists.
  split; [reflexivity |].
  split; [vm_compute; reflexivity |].
  apply (disabled_get_text_is_default sizeof_lp64 NaN_address 6 unavailable_text
           collector_memory lua0 run0).
  - reflexivity.
  - vm_compute; reflexivity.
Defined.

Lemma contains_length (t s : string) :
  contains t s = true -> String.length s <= String.length t.
Proof.
  assert (Hprefix : forall s t : string,
             String.prefix s t = true -> String.length s <= String.length t).
  { clear. induction s as [| c s IH]; intros [| d t]; simpl; try lia.
    destruct (Ascii.ascii_dec c d); [| discriminate].
    intros H. apply IH in H. lia. }
  revert s. induction t as [| d t IH]; intros s.
  - destruct s; simpl; [lia | discriminate].
  - cbn [contains]. intros H. apply orb_true_iff in H as [H | H].
    + apply Hprefix in H. simpl in H. exact H.
    + apply IH in H. simpl. lia.
Qed.

(** C3, as claimed, fails: whatever the precision and the unavailability
    string of the default text are, there is a setting the text of a
    disabled source does not contain, since the text is the same for all
    settings.  (A setting longer than the unavailability string is
    one.) *)
Lemma disabled_get_text_misses_setting :
  ~ (exists (precision : nat) (unavailable : string),
       forall (l : lua.state) (name_ setting : string) (m : mem),
         load c_float m NaN_address = Some S754_nan ->
         exists t,
           get_text precision unavailable m
             (obj_disabled (disabled_data_source_ctor NaN_address l name_ setting))
           = Some t
           /\ contains t setting = true).
Proof.
  intros (precision & unavailable & Hclaim).
  destruct (Hclaim lua0 "nvidia_temp" (String "B" unavailable) memory0 eq_refl)
    as (t & Ht & Hin).
  assert (Hdef : t = unavailable).
  { rewrite get_text_is_default in Ht. unfold data_source_base_get_text in Ht.
    rewrite (disabled_reads_nan NaN_address lua0 "nvidia_temp" _ memory0 eq_refl)
      in Ht.
    simpl in Ht. congruence. }
  subst t. apply contains_length in Hin. simpl in Hin. lia.
Qed.

(** The header alone gives as much: the class has no [get_text] of its
    own and no field for the setting, so whatever body the inherited
    [get_text] has, as a function of the memory and of the object, its
    text cannot contain every setting. *)
Lemma inherited_text_misses_a_setting :
  ~ (exists body : mem -> object -> option string,
       forall (l : lua.state) (name_ setting : string) (m : mem),
         exists t,
           body m (obj_disabled
                     (disabled_data_source_ctor NaN_address l name_ setting))
           = Some t
           /\ contains t setting = true).
Proof.
  intros (body & Hclaim).
  destruct (Hclaim lua0 "nvidia_temp" "" memory0) as (t0 & Ht0 & _).
  destruct (Hclaim lua0 "nvidia_temp" (String "B" t0) memory0) as (t & Ht & Hin).
  assert (Hsame : t = t0).
  { change (body memory0
              (obj_disabled
                 (disabled_data_source_ctor NaN_address lua0 "nvidia_temp" ""))
            = Some t) in Ht.
    congruence. }
  subst t. apply contains_length in Hin. simpl in Hin. lia.
Qed.

(** Why the runs of C2 and C3 assign other scalars only: the model lets
    an assignment address any scalar, and one that addressed the float of
    the disabled source would change its number. *)
Example store_to_the_float_is_no_such_run :
  forallb (stores_elsewhere NaN_address)
    [act_store c_float NaN_address (Prim2SF 1%float)] = false
  /\ get_number
       (store c_float NaN_address (Prim2SF 1%float)
          (static_initialization NaN_address collector_memory))
       nvidia_source = Some 1%float.
Proof. split; vm_compute; reflexivity. Qed.

(** C7 at the registration of "uptime". *)
Lemma registered_factory_constructs_in_place_witness :
  register_data_source reject_duplicate (class_simple_numeric_source c_double)
    "uptime" uptime_address ∅ = Some (<["uptime" := uptime_factory]> ∅)
  /\ metatable_slot lua0 = Some (Some 1%N)
  /\ exists fn a l',
       (<["uptime" := uptime_factory]> ∅ : data_sources_t) !! "uptime" = Some fn
       /\ call sizeof_lp64 NaN_address fn lua0 = Some (1%Z, l')
       /\ lua.userdata lua0 !! a = None
       /\ lua.stack l' = [LUserdata a]
       /\ lua.userdata l'
          = <[a := {| ud_size := 48; ud_object := Some uptime_source;
                      ud_metatable := Some 1%N |}]> (lua.userdata lua0)
       /\ object_name uptime_source = "uptime".
Proof.
  split; [reflexivity |]. split; [reflexivity |].
  apply (registered_factory_constructs_in_place sizeof_lp64 NaN_address
           reject_duplicate (class_simple_numeric_source c_double) "uptime"
           uptime_address ∅ _ lua0 (Some 1%N)); reflexivity.
Defined.

(** C8 at a state that holds the uptime object, for the next object and
    for a run that constructs it. *)
Lemma factory_tags_with_shared_metatable_witness :
  lua.registry (w_lua world1) !! data_source_metatable = Some (LTable 1)
  /\ all_tagged 1 (w_lua world1)
  /\ (exists a l',
        factory sizeof_lp64 NaN_address class_disabled_data_source (w_lua world1)
          "nvidia_temp" "BUILD_NVIDIA" = Some (1%Z, l')
        /\ lua.stack l' = [LUserdata a]
        /\ object_at a l' = Some nvidia_source
        /\ ud_metatable <$> lua.userdata l' !! a = Some (Some 1%N)
        /\ lua.tables l' = lua.tables (w_lua world1)
        /\ lua.registry l' = lua.registry (w_lua world1))
  /\ (forall w',
        run sizeof_lp64 NaN_address 6 unavailable_text
          [act_invoke nvidia_factory []; act_get_number 0] world1 = Some w' ->
        lua.registry (w_lua w') !! data_source_metatable = Some (LTable 1)
        /\ lua.tables (w_lua w') = lua.tables (w_lua world1)
        /\ all_tagged 1 (w_lua w')).
Proof.
  assert (Hreg : lua.registry (w_lua world1) !! data_source_metatable
                 = Some (LTable 1)) by reflexivity.
  assert (Htag : all_tagged 1 (w_lua world1)).
  { intros a u o Hu Ho. simpl in Hu.
    apply lookup_insert_Some in Hu as [[_ <-] | [_ Hu]]; [reflexivity |].
    rewrite lookup_empty in Hu. discriminate. }
  split; [exact Hreg |]. split; [exact Htag |].
  destruct (factory_tags_with_shared_metatable sizeof_lp64 NaN_address 6
              unavailable_text world1 1%N Hreg Htag) as [Hone Hall].
  split.
  - exact (Hone class_disabled_data_source "nvidia_temp" "BUILD_NVIDIA").
  - intros w'. apply Hall.
Defined.

(** C4 at the registry of "uptime" and "nvidia_temp". *)
Lemma export_binds_every_registered_name_witness :
  do_register_all reject_duplicate calls0 ∅ = Some data_sources0
  /\ metatable_slot lua0 = Some (Some 1%N)
  /\ "uptime" ∈ calls0.*1
  /\ exists fn,
       ("uptime", fn) ∈ calls0
       /\ (forall v, lua.globals (export_data_sources data_sources0 lua0) !! "uptime"
                     = Some v <-> v = LFunction fn)
       /\ forall args, exists a l' o,
            invoke sizeof_lp64 NaN_address fn args
              (export_data_sources data_sources0 lua0) = Some ([LUserdata a], l')
            /\ object_at a (export_data_sources data_sources0 lua0) = None
            /\ object_at a l' = Some o.
Proof.
  split; [reflexivity |]. split; [reflexivity |].
  split; [apply list_elem_of_here |].
  apply (export_binds_every_registered_name sizeof_lp64 NaN_address
           reject_duplicate calls0 data_sources0 lua0 (Some 1%N) "uptime").
  - reflexivity.
  - reflexivity.
  - apply list_elem_of_here.
Defined.

(** C9 at the uptime object, over a run that queries it, assigns its
    scalar and constructs another object. *)
Lemma queries_leave_objects_unchanged_witness :
  object_at 0 (w_lua world1) = Some uptime_source
  /\ (forall v w',
        call_get_number 0 world1 = Some (v, w') -> w' = world1)
  /\ (forall t w',
        call_get_text 6 unavailable_text 0 world1 = Some (t, w') -> w' = world1)
  /\ (forall w',
        run sizeof_lp64 NaN_address 6 unavailable_text
          [act_get_number 0; act_store c_double uptime_address 2600%float;
           act_invoke nvidia_factory []; act_get_text 0] world1 = Some w' ->
        object_at 0 (w_lua w') = Some uptime_source
        /\ object_name <$> object_at 0 (w_lua w') = Some "uptime").
Proof.
  assert (Hobj : object_at 0 (w_lua world1) = Some uptime_source) by reflexivity.
  split; [exact Hobj |].
  destruct (queries_leave_objects_unchanged sizeof_lp64 NaN_address 6
              unavailable_text 0 uptime_source world1 Hobj)
    as (Hnum & Htext & Hrun & _).
  split; [exact Hnum |]. split; [exact Htext |].
  intros w'. apply Hrun.
Defined.

(** ** The further theorems at the concrete program *)

(** The factory of "nvidia_temp" on a state with an empty registry. *)
Lemma factory_before_metatable_is_registered_witness :
  lua.registry lua_bare !! data_source_metatable = None
  /\ exists a l',
       factory sizeof_lp64 NaN_address class_disabled_data_source lua_bare
         "nvidia_temp" "BUILD_NVIDIA" = Some (1%Z, l')
       /\ lua.stack l' = [LUserdata a]
       /\ object_at a l' = Some nvidia_source
       /\ ud_metatable <$> lua.userdata l' !! a = Some None.
Proof.
  split; [reflexivity |].
  apply (factory_before_metatable_is_registered sizeof_lp64 NaN_address
           class_disabled_data_source lua_bare "nvidia_temp" "BUILD_NVIDIA").
  reflexivity.
Defined.

(** The call of [uptime()] that leads from [lua0] to [lua1]. *)
Lemma factory_adds_one_block_only_witness :
  factory sizeof_lp64 NaN_address (class_simple_numeric_source c_double) lua0
    "uptime" uptime_address = Some (1%Z, lua1)
  /\ lua.registry lua1 = lua.registry lua0
  /\ lua.globals lua1 = lua.globals lua0
  /\ lua.tables lua1 = lua.tables lua0
  /\ lua.type_metatable lua1 = lua.type_metatable lua0
  /\ (forall b u, lua.userdata lua0 !! b = Some u -> lua.userdata lua1 !! b = Some u)
  /\ size (lua.userdata lua1) = S (size (lua.userdata lua0)).
Proof.
  assert (Hcall : factory sizeof_lp64 NaN_address
                    (class_simple_numeric_source c_double) lua0
                    "uptime" uptime_address = Some (1%Z, lua1))
    by (vm_compute; reflexivity).
  split; [exact Hcall |].
  exact (factory_adds_one_block_only sizeof_lp64 NaN_address _ _ _ _ _ _ Hcall).
Defined.

(** [uptime()] and then [nvidia_temp()], from [lua0]. *)
Lemma factory_twice_gives_two_objects_witness :
  exists l2,
    factory sizeof_lp64 NaN_address (class_simple_numeric_source c_double) lua0
      "uptime" uptime_address = Some (1%Z, lua1)
    /\ factory sizeof_lp64 NaN_address class_disabled_data_source lua1
         "nvidia_temp" "BUILD_NVIDIA" = Some (1%Z, l2)
    /\ exists a1 a2,
         lua.stack lua1 = [LUserdata a1]
         /\ lua.stack l2 = [LUserdata a2]
         /\ a1 <> a2
         /\ object_at a1 l2 = Some uptime_source
         /\ object_at a2 l2 = Some nvidia_source
         /\ lua.userdata l2 !! a1 = lua.userdata lua1 !! a1.
Proof.
  eexists.
  assert (H1 : factory sizeof_lp64 NaN_address
                 (class_simple_numeric_source c_double) lua0
                 "uptime" uptime_address = Some (1%Z, lua1))
    by (vm_compute; reflexivity).
  split; [exact H1 |].
  split; [vm_compute; reflexivity |].
  apply (factory_twice_gives_two_objects sizeof_lp64 NaN_address
           (class_simple_numeric_source c_double) class_disabled_data_source
           lua0 lua1 _ "uptime" "nvidia_temp" uptime_address "BUILD_NVIDIA"
           1%Z 1%Z H1).
  vm_compute; reflexivity.
Defined.

(** A constructor that reads its argument: called with "uptime" as the
    script's first argument, it finds it at index 2 and picks the uptime
    scalar. *)
Example factory_of_choosing_ctor :
  exists l',
    factory_of 48 choosing_ctor (lua.with_stack [LString "uptime"] lua0) "chosen"
    = Some (1%Z, l')
    /\ object_at 0 l'
       = Some (obj_simple_numeric c_double
                 (simple_numeric_source_ctor c_double lua0 "chosen" uptime_address))
    /\ (get_number memory0 <$> object_at 0 l') = Some (Some 120.5%float).
Proof.
  eexists.
  split; [vm_compute; reflexivity |].
  split; vm_compute; reflexivity.
Qed.

(** The handle of [uptime()] on [lua0], read after the collector has
    stored 2600. *)
Lemma factory_handle_reads_current_value_witness :
  factory sizeof_lp64 NaN_address (class_simple_numeric_source c_double) lua0
    "uptime" uptime_address = Some (1%Z, lua1)
  /\ exists a,
       lua.stack lua1 = [LUserdata a]
       /\ forall (m : mem) (x : cval c_double),
            (o ← object_at a lua1;
             get_number (store c_double uptime_address x m) o)
            = Some (to_double c_double x).
Proof.
  assert (Hcall : factory sizeof_lp64 NaN_address
                    (class_simple_numeric_source c_double) lua0
                    "uptime" uptime_address = Some (1%Z, lua1))
    by (vm_compute; reflexivity).
  split; [exact Hcall |].
  exact (factory_handle_reads_current_value sizeof_lp64 NaN_address c_double
           lua0 lua1 "uptime" uptime_address 1%Z Hcall).
Defined.
